(** * Pokemon TCG Checker backend: a shallow embedding of [main.py] and
      [schemas.py], and the properties of its HTTP handlers.

    The handlers are Python functions that read the process environment,
    issue one outbound GET or one document-store operation, and either return
    a value or raise.  They are embedded as computations of a small
    state-and-exception monad over an explicit [World]. *)

From Stdlib Require Import ZArith QArith Qcanon Ascii String DecimalString.
From stdpp Require Import base numbers list option strings gmap.

Local Open Scope Z_scope.

(** ** Python strings and floats

    A Python [str] is a sequence of Unicode code points; slicing ([s[:80]])
    counts code points.  A code point is its scalar value: the strings
    considered hold no lone surrogate, so that every string can be written
    out as UTF-8. *)

Module Py.

Definition char : Type := N.
Definition str : Type := list char.

(** An ASCII literal of the source, one code point per character. *)
Definition lit (s : string) : str :=
  (λ a, N_of_ascii a) <$> list_ascii_of_string s.

(** [s[:n]], for a string or a list. *)
Definition slice_to {A} (n : nat) (s : list A) : list A := take n s.

(** Truthiness of an [Optional[str]]: [None] and [""] are falsy. *)
Definition truthy (o : option str) : bool :=
  match o with
  | None => false
  | Some [] => false
  | Some (_ :: _) => true
  end.

(** [str(n)] for an [int]. *)
Definition str_int (n : Z) : str := lit (NilZero.string_of_int (Z.to_int n)).

(** A Python [float] is a binary64: a finite number, the negative zero, an
    infinity or a NaN.  This program does no arithmetic on floats (it
    compares a price with a bound, stores it and sends it back), so a
    finite one is held as the rational it denotes; every finite binary64
    is one. *)
Inductive float : Type :=
  | Finite (q : Qc)
  | NegZero
  | Inf (negative : bool)
  | NaN.

#[global] Instance float_eq_dec : EqDecision float.
Proof. solve_decision. Defined.

(** [math.isfinite(f)] *)
Definition isfinite (f : float) : bool :=
  match f with
  | Finite _ | NegZero => true
  | Inf _ | NaN => false
  end.

(** Exceptions.  Every class raised in this program derives from
    [Exception]: FastAPI's [HTTPException], and everything else (errors of
    [requests], JSON decoding errors, store errors), of which only the
    message matters. *)
Inductive exn : Type :=
  | HTTPException (status_code : Z) (detail : str)
  | Error (msg : str).

End Py.
Export Py.

(** ** JSON documents relayed from the catalog

    What [r.json()] returns: [json] reads an integer literal as an [int], any
    other number as a [float], and [1e400], [Infinity] or [NaN] as a float
    that is not finite. *)

#[warnings="-register-all"]
Inductive JSON : Type :=
  | JNull
  | JBool (b : bool)
  | JInt (n : Z)
  | JFloat (f : float)
  | JString (s : str)
  | JArray (l : list JSON)
  | JObject (l : list (str * JSON)).

(** No number of the document is an infinity or a NaN. *)
Fixpoint finite_json (j : JSON) : bool :=
  match j with
  | JNull | JBool _ | JInt _ | JString _ => true
  | JFloat f => isfinite f
  | JArray l => forallb finite_json l
  | JObject l => forallb (λ kv, let '(_, v) := kv in finite_json v) l
  end.

(** ** The outside world *)

(** A query-string argument handed to [requests.get(..., params=...)]. *)
Inductive arg : Type :=
  | AInt (n : Z)
  | AStr (s : str).

Record Request : Type := mkRequest {
  req_url : str;
  req_params : option (gmap str arg);
  req_timeout : Z
}.

(** The [requests.Response] object: [r.status_code], [r.text] and the
    outcome of [r.json()] (a decoding error message, or the document). *)
Record Response : Type := mkResponse {
  status_code : Z;
  text : str;
  json : str + JSON
}.

(** [requests.get] either raises (connection error, timeout) or returns. *)
Inductive Reply : Type :=
  | GetRaises (msg : str)
  | GetReturns (r : Response).

(** ** The document store

    [main.py] imports [create_document], [get_documents] and [db] from the
    module [database], the accessor of a MongoDB database.  The module is
    not among the sources; the store behind it is described here as far as
    the accessor's contract needs. *)

Module Store.

(** [bson.ObjectId]: twelve bytes, here the number they spell. *)
Record ObjectId : Type := mkObjectId { oid : N }.

Definition hex_digit (n : N) : char :=
  (if n <? 10 then 48 + n else 87 + n)%N.

Fixpoint hex_digits (k : nat) (n : N) : str :=
  match k with
  | O => []
  | S k' => hex_digits k' (n / 16)%N ++ [hex_digit (n mod 16)%N]
  end.

(** [str(oid)]: the 24 lowercase hexadecimal digits. *)
Definition str_oid (o : ObjectId) : str := hex_digits 24 (oid o).

(** A field value of a stored wishlist record. *)
Inductive scalar : Type :=
  | SNone
  | SStr (s : str)
  | SFloat (f : float)
  | SOid (o : ObjectId).

#[global] Instance ObjectId_eq_dec : EqDecision ObjectId.
Proof. solve_decision. Defined.

#[global] Instance scalar_eq_dec : EqDecision scalar.
Proof. solve_decision. Defined.

(** Modelled from the spec: a record as the store keeps it, with the
    identifier the store assigned on creation and the fields that were
    inserted ("Identity is assigned by the document store on creation"). *)
Record Stored : Type := mkStored {
  stored_id : ObjectId;
  stored_fields : gmap str scalar
}.

(** Modelled from the spec: the dict a query yields for a record, its
    fields and the identifier under [_id] ("Each returned record carries an
    identifier field"). *)
Definition to_dict (r : Stored) : gmap str scalar :=
  <[lit "_id" := SOid (stored_id r)]> (stored_fields r).

(** Modelled from the spec: a live database handle, with each
    collection's records in store-native order, the next identifier the
    store will assign, and whether the server currently fails every
    operation (with which message). *)
Record Database : Type := mkDatabase {
  collections : gmap str (list Stored);
  next_oid : N;
  fault : option str
}.

(** Modelled from the spec: an equality filter matches a dict that has
    every key of the filter with the same value; the empty filter matches
    everything ("key→value, empty mapping means all"). *)
Definition matches (filter_dict d : gmap str scalar) : bool :=
  forallb (λ kv, bool_decide (d !! kv.1 = Some kv.2)) (map_to_list filter_dict).

(** Whether the framework can write a value of a returned dict into a JSON
    response: [None] and strings always, a float when it is finite
    ([allow_nan=False]), an [ObjectId] never. *)
Definition renders_scalar (v : scalar) : bool :=
  match v with
  | SNone | SStr _ => true
  | SFloat f => isfinite f
  | SOid _ => false
  end.

Definition renders_dict (d : gmap str scalar) : bool :=
  bool_decide (map_Forall (λ _ v, renders_scalar v = true) d).

End Store.
Export Store.

(** ** The world a handler runs in *)

Record World : Type := mkWorld {
  environ : gmap str str;          (* os.environ *)
  catalog : Request → Reply;       (* how the remote catalog answers a GET *)
  sent : list Request;             (* the outbound GETs issued so far *)
  db : option Database             (* database.db, None when not connected *)
}.

(** ** Computations that may raise *)

Inductive outcome (A : Type) : Type :=
  | Returns (a : A)
  | Raises (e : exn).
Arguments Returns {A} a.
Arguments Raises {A} e.

Definition M (A : Type) : Type := World → outcome A * World.

Definition ret {A} (a : A) : M A := λ w, (Returns a, w).

Definition bind {A B} (m : M A) (k : A → M B) : M B :=
  λ w, match m w with
       | (Returns a, w') => k a w'
       | (Raises e, w') => (Raises e, w')
       end.

Definition raise {A} (e : exn) : M A := λ w, (Raises e, w).

(** [try: body  except Exception as e: handler]; every [exn] is an
    [Exception]. *)
Definition try_except {A} (body : M A) (handler : exn → M A) : M A :=
  λ w, match body w with
       | (Returns a, w') => (Returns a, w')
       | (Raises e, w') => handler e w'
       end.

Declare Scope py_scope.
Delimit Scope py_scope with py.
Notation "x <- m ;; k" := (bind m (λ x, k))
  (at level 100, m at next level, right associativity) : py_scope.
Local Open Scope py_scope.

Definition world : M World := λ w, (Returns w, w).

(** [os.getenv(name)] *)
Definition getenv (name : str) : M (option str) :=
  λ w, (Returns (environ w !! name), w).

(** [requests.get(url, params=params, timeout=timeout)] *)
Definition requests_get (url : str) (params : option (gmap str arg))
    (timeout : Z) : M Response :=
  λ w, let rq := mkRequest url params timeout in
       let w' := mkWorld (environ w) (catalog w) (sent w ++ [rq]) (db w) in
       match catalog w rq with
       | GetRaises msg => (Raises (Error msg), w')
       | GetReturns r => (Returns r, w')
       end.

(** [r.json()] *)
Definition r_json (r : Response) : M JSON :=
  match json r with
  | inl msg => raise (Error msg)
  | inr data => ret data
  end.

(** ** What this repository does not fix

    [str(e)] of an [HTTPException] is what the installed Starlette makes of
    its status and detail; [str(x)] of a float is its shortest repr; the
    message of the error the accessor raises without a connection is a
    literal of [database.py]; whether a NaN passes a bound such as [ge=0]
    is pydantic's comparison; and whether a document can be serialised into
    a response is the framework's encoder, which refuses every document
    that holds a number that is not finite (and may refuse others, one
    nested too deeply for instance). *)
Class Platform : Type := {
  str_HTTPException : Z → str → str;
  str_float : float → str;
  no_connection_msg : str;
  nan_passes_bound : bool;
  renders : JSON → bool;
  renders_finite : ∀ j, renders j = true → finite_json j = true
}.

(** ** Request and storage schemas (pydantic models) *)

(** What pydantic finds in a JSON body under the key of a field of a given
    type: the key is missing, is [null], has a value that is of the type
    or that pydantic converts to it (an integer for a float field), or has
    a value it refuses for that type. *)
Inductive field (A : Type) : Type :=
  | Missing
  | Null
  | Given (a : A)
  | Mistyped.
Arguments Missing {A}.
Arguments Null {A}.
Arguments Given {A} a.
Arguments Mistyped {A}.

(** The body of [POST /api/wishlist], a JSON object, before validation;
    keys that are not fields of the model are ignored. *)
Record Payload : Type := mkPayload {
  p_card_id : field str;
  p_name : field str;
  p_set_name : field str;
  p_set_id : field str;
  p_number : field str;
  p_image_url : field str;
  p_desired_price : field float;
  p_notes : field str;
  p_status : field str
}.

(** The validators return the value of the field, or nothing when the
    field is in error. *)

(** A field without default ([x: str], [Field(...)]): the key must be there
    with a value of the type. *)
Definition required {A} (f : field A) : option A :=
  match f with
  | Given a => Some a
  | Missing | Null | Mistyped => None
  end.

(** An [Optional[...]] field with default [dflt]: the default when the key
    is missing, [None] for [null], the value when it is of the type. *)
Definition optional {A} (dflt : option A) (f : field A) : option (option A) :=
  match f with
  | Missing => Some dflt
  | Null => Some None
  | Given a => Some (Some a)
  | Mistyped => None
  end.

(** A non-optional field with a default ([status: str = Field("watching")]):
    the default when missing, the value when given, [null] is an error. *)
Definition defaulted {A} (dflt : A) (f : field A) : option A :=
  match f with
  | Missing => Some dflt
  | Given a => Some a
  | Null | Mistyped => None
  end.

(** The constraint [ge=0] on a float: the comparison of binary64, under
    which the negative zero is not below zero. *)
Definition ge0 `{Platform} (f : float) : bool :=
  match f with
  | Finite q => bool_decide (0 ≤ q)%Qc
  | NegZero => true
  | Inf negative => negb negative
  | NaN => nan_passes_bound
  end.

(** [Optional[float] = Field(None, ge=0)] *)
Definition optional_ge0 `{Platform} (f : field float) : option (option float) :=
  match f with
  | Given x => if ge0 x then Some (Some x) else None
  | _ => optional None f
  end.

(** The constraint [ge=lo, le=hi] on an integer. *)
Definition within (lo hi n : Z) : bool :=
  bool_decide (lo ≤ n) && bool_decide (n ≤ hi).

(** The name of a field in the list of validation errors, when it failed. *)
Definition failed {A} (name : string) (v : option A) : list str :=
  match v with
  | None => [lit name]
  | Some _ => []
  end.

(** Serialisation of a model instance to a dict ([BaseModel.model_dump]). *)
Class BaseModel (A : Type) : Type := model_dump : A → gmap str scalar.

Definition dump_str (o : option str) : scalar :=
  match o with Some s => SStr s | None => SNone end.

Definition dump_float (o : option float) : scalar :=
  match o with Some f => SFloat f | None => SNone end.

(** [class WishlistIn(BaseModel)] of [main.py]. *)
Module WishlistIn.

Record t : Type := mk {
  card_id : str;
  name : str;
  set_name : option str;
  set_id : option str;
  number : option str;
  image_url : option str;
  desired_price : option float;
  notes : option str;
  status : option str
}.

Definition validate (p : Payload) : list str + t :=
  let c := required (p_card_id p) in
  let n := required (p_name p) in
  let sn := optional None (p_set_name p) in
  let si := optional None (p_set_id p) in
  let nu := optional None (p_number p) in
  let iu := optional None (p_image_url p) in
  let dp := optional None (p_desired_price p) in
  let no := optional None (p_notes p) in
  let st := optional (Some (lit "watching")) (p_status p) in
  match c, n, sn, si, nu, iu, dp, no, st with
  | Some c', Some n', Some sn', Some si', Some nu', Some iu', Some dp',
    Some no', Some st' => inr (mk c' n' sn' si' nu' iu' dp' no' st')
  | _, _, _, _, _, _, _, _, _ =>
      inl (failed "card_id" c ++ failed "name" n ++ failed "set_name" sn
           ++ failed "set_id" si ++ failed "number" nu ++ failed "image_url" iu
           ++ failed "desired_price" dp ++ failed "notes" no
           ++ failed "status" st)
  end.

#[global] Instance dump : BaseModel t := λ i,
  list_to_map
    [ (lit "card_id", SStr (card_id i));
      (lit "name", SStr (name i));
      (lit "set_name", dump_str (set_name i));
      (lit "set_id", dump_str (set_id i));
      (lit "number", dump_str (number i));
      (lit "image_url", dump_str (image_url i));
      (lit "desired_price", dump_float (desired_price i));
      (lit "notes", dump_str (notes i));
      (lit "status", dump_str (status i)) ].

End WishlistIn.

(** [class WishlistItem(BaseModel)] of [schemas.py]. *)
Module WishlistItem.

Record t : Type := mk {
  card_id : str;
  name : str;
  set_name : option str;
  set_id : option str;
  number : option str;
  image_url : option str;
  desired_price : option float;
  notes : option str;
  status : str
}.

Definition validate `{Platform} (p : Payload) : list str + t :=
  let c := required (p_card_id p) in
  let n := required (p_name p) in
  let sn := optional None (p_set_name p) in
  let si := optional None (p_set_id p) in
  let nu := optional None (p_number p) in
  let iu := optional None (p_image_url p) in
  let dp := optional_ge0 (p_desired_price p) in
  let no := optional None (p_notes p) in
  let st := defaulted (lit "watching") (p_status p) in
  match c, n, sn, si, nu, iu, dp, no, st with
  | Some c', Some n', Some sn', Some si', Some nu', Some iu', Some dp',
    Some no', Some st' => inr (mk c' n' sn' si' nu' iu' dp' no' st')
  | _, _, _, _, _, _, _, _, _ =>
      inl (failed "card_id" c ++ failed "name" n ++ failed "set_name" sn
           ++ failed "set_id" si ++ failed "number" nu ++ failed "image_url" iu
           ++ failed "desired_price" dp ++ failed "notes" no
           ++ failed "status" st)
  end.

End WishlistItem.

(** A body to validate as a [User]. *)
Record UserPayload : Type := mkUserPayload {
  u_name : field str;
  u_email : field str;
  u_address : field str;
  u_age : field Z;
  u_is_active : field bool
}.

(** [class User(BaseModel)] of [schemas.py]. *)
Module User.

Record t : Type := mk {
  name : str;
  email : str;
  address : str;
  age : option Z;
  is_active : bool
}.

(** [age: Optional[int] = Field(None, ge=0, le=120)] *)
Definition validate_age (f : field Z) : option (option Z) :=
  match f with
  | Given y => if within 0 120 y then Some (Some y) else None
  | _ => optional None f
  end.

Definition validate (p : UserPayload) : list str + t :=
  let n := required (u_name p) in
  let e := required (u_email p) in
  let a := required (u_address p) in
  let y := validate_age (u_age p) in
  let act := defaulted true (u_is_active p) in
  match n, e, a, y, act with
  | Some n', Some e', Some a', Some y', Some act' => inr (mk n' e' a' y' act')
  | _, _, _, _, _ =>
      inl (failed "name" n ++ failed "email" e ++ failed "address" a
           ++ failed "age" y ++ failed "is_active" act)
  end.

End User.

(** A body to validate as a [Product]. *)
Record ProductPayload : Type := mkProductPayload {
  pr_title : field str;
  pr_description : field str;
  pr_price : field float;
  pr_category : field str;
  pr_in_stock : field bool
}.

(** [class Product(BaseModel)] of [schemas.py]. *)
Module Product.

Record t : Type := mk {
  title : str;
  description : option str;
  price : float;
  category : str;
  in_stock : bool
}.

(** [price: float = Field(..., ge=0)]: required, and not below zero. *)
Definition validate_price `{Platform} (f : field float) : option float :=
  match required f with
  | Some x => if ge0 x then Some x else None
  | None => None
  end.

Definition validate `{Platform} (p : ProductPayload) : list str + t :=
  let ti := required (pr_title p) in
  let de := optional None (pr_description p) in
  let pc := validate_price (pr_price p) in
  let ca := required (pr_category p) in
  let st := defaulted true (pr_in_stock p) in
  match ti, de, pc, ca, st with
  | Some ti', Some de', Some pc', Some ca', Some st' =>
      inr (mk ti' de' pc' ca' st')
  | _, _, _, _, _ =>
      inl (failed "title" ti ++ failed "description" de ++ failed "price" pc
           ++ failed "category" ca ++ failed "in_stock" st)
  end.

End Product.

(** ** The framework around a handler

    FastAPI answers 422 with the failing fields when the body does not
    validate against the model of the handler's parameter (the handler is
    then not called); the status and detail of an [HTTPException] the
    handler raises; 500 for any other exception; and 200 with what the
    handler returns, when it can serialise it.  The value is serialised
    after the handler has returned, outside its [try]: a value that cannot
    be serialised is answered 500, Internal Server Error, without detail. *)

Inductive Body (A : Type) : Type :=
  | Content (a : A)
  | Detail (d : str)
  | ValidationErrors (fields : list str)
  | InternalServerError.
Arguments Content {A} a.
Arguments Detail {A} d.
Arguments ValidationErrors {A} fields.
Arguments InternalServerError {A}.

Record HTTP (A : Type) : Type := mkHTTP {
  code : Z;
  body : Body A
}.
Arguments mkHTTP {A} code body.
Arguments code {A} h.
Arguments body {A} h.

(** [serialises a] tells whether the framework can serialise [a]. *)
Definition respond {A} (serialises : A → bool) (o : outcome A) : HTTP A :=
  match o with
  | Returns a =>
      if serialises a then mkHTTP 200 (Content a)
      else mkHTTP 500 InternalServerError
  | Raises (HTTPException s d) => mkHTTP s (Detail d)
  | Raises (Error _) => mkHTTP 500 InternalServerError
  end.

Definition serve {A} (serialises : A → bool) (handler : M A) (w : World)
    : HTTP A * World :=
  let '(o, w') := handler w in (respond serialises o, w').

(** A dict whose values are strings, lists of strings or [None] always
    serialises. *)
Definition always {A} (a : A) : bool := true.

(** The answer of [GET /api/wishlist], a dict of lists of dicts, serialises
    when every value of every dict does. *)
Definition renders_answer (c : gmap str (list (gmap str scalar))) : bool :=
  bool_decide (map_Forall (λ _ l, forallb renders_dict l = true) c).

(** ** The application: [main.py] *)

Section Main.

Context {platform : Platform}.

(** [str(e)] *)
Definition str_exn (e : exn) : str :=
  match e with
  | HTTPException s d => str_HTTPException s d
  | Error msg => msg
  end.

(** [str(v)] for a value found in a stored record. *)
Definition str_scalar (v : scalar) : str :=
  match v with
  | SNone => lit "None"
  | SStr s => s
  | SFloat f => str_float f
  | SOid o => str_oid o
  end.

(** *** The accessor, [database.py] *)

(** Modelled from the spec: [database.create_document] is not among the
    sources.  "create(collection, item): serialize the validated item to a
    storage record and insert it; returns the assigned identifier.  Fails
    with a store error if no connection is available or the insert fails." *)
Definition create_document `{BaseModel A} (collection_name : str) (data : A)
    : M str :=
  λ w, match db w with
       | None => (Raises (Error no_connection_msg), w)
       | Some d =>
           match fault d with
           | Some msg => (Raises (Error msg), w)
           | None =>
               let o := mkObjectId (next_oid d) in
               let old := default [] (collections d !! collection_name) in
               let d' := mkDatabase
                           (<[collection_name := old ++ [mkStored o (model_dump data)]]>
                              (collections d))
                           (next_oid d + 1)%N None in
               (Returns (str_oid o),
                mkWorld (environ w) (catalog w) (sent w) (Some d'))
           end
       end.

(** Modelled from the spec: [database.get_documents] is not among the
    sources.  "query(collection, filter): given an equality-filter mapping
    (key→value, empty mapping means "all"), return all matching records in
    store-native order.  Each returned record carries an identifier field." *)
Definition get_documents (collection_name : str)
    (filter_dict : gmap str scalar) : M (list (gmap str scalar)) :=
  λ w, match db w with
       | None => (Raises (Error no_connection_msg), w)
       | Some d =>
           match fault d with
           | Some msg => (Raises (Error msg), w)
           | None =>
               (Returns (filter (λ r, matches filter_dict r)
                           (to_dict <$> default [] (collections d !! collection_name))),
                w)
           end
       end.

(** Modelled from the spec: the handle's [list_collection_names()], which
    fails like every other operation of a failing store. *)
Definition list_collection_names (d : Database) : M (list str) :=
  match fault d with
  | Some msg => raise (Error msg)
  | None => ret ((map_to_list (collections d)).*1)
  end.

(** *** Constants *)

Definition PTCG_API_BASE : str := lit "https://api.pokemontcg.io/v2".

Definition CHECK_MARK : str := [0x2705%N].
Definition CROSS_MARK : str := [0x274C%N].
Definition WARNING_SIGN : str := [0x26A0%N; 0xFE0F%N].

(** *** [GET /] *)

Definition root : M (gmap str str) :=
  ret {[ lit "message" := lit "Pokemon TCG Checker Backend running" ]}.

(** *** [GET /test] *)

(** A value of the diagnostic dict. *)
Inductive diag : Type :=
  | DNone
  | DStr (s : str)
  | DNames (l : list str).

Definition set_unset (v : option str) : diag :=
  DStr (if truthy v then CHECK_MARK ++ lit " Set"
        else CROSS_MARK ++ lit " Not Set").

(** The local dict [response] is threaded by hand: a handler of [except]
    continues from the assignments made before the raise. *)
Definition test_database : M (gmap str diag) :=
  let response : gmap str diag :=
    list_to_map
      [ (lit "backend", DStr (CHECK_MARK ++ lit " Running"));
        (lit "database", DStr (CROSS_MARK ++ lit " Not Available"));
        (lit "database_url", DNone);
        (lit "database_name", DNone);
        (lit "connection_status", DStr (lit "Not Connected"));
        (lit "collections", DNames []) ] in
  response <-
    try_except
      (w <- world ;;
       match db w with
       | Some d =>
           let response :=
             <[lit "database" := DStr (CHECK_MARK ++ lit " Available")]> response in
           try_except
             (collections <- list_collection_names d ;;
              let response :=
                <[lit "collections" := DNames (slice_to 10 collections)]> response in
              let response :=
                <[lit "database" := DStr (CHECK_MARK ++ lit " Connected & Working")]>
                  response in
              let response :=
                <[lit "connection_status" := DStr (lit "Connected")]> response in
              ret response)
             (λ e, ret (<[lit "database" :=
                            DStr (WARNING_SIGN ++ lit "  Connected but Error: "
                                  ++ slice_to 80 (str_exn e))]> response))
       | None =>
           ret (<[lit "database" :=
                    DStr (WARNING_SIGN ++ lit "  Available but not initialized")]>
                  response)
       end)
      (λ e, ret (<[lit "database" :=
                     DStr (CROSS_MARK ++ lit " Error: " ++ slice_to 80 (str_exn e))]>
                   response)) ;;
  url <- getenv (lit "DATABASE_URL") ;;
  let response := <[lit "database_url" := set_unset url]> response in
  name <- getenv (lit "DATABASE_NAME") ;;
  let response := <[lit "database_name" := set_unset name]> response in
  ret response.

(** *** Pokemon TCG API proxy endpoints *)

Definition search_cards (q : option str) (page pageSize : Z) : M JSON :=
  try_except
    (let params : gmap str arg :=
       {[ lit "page" := AInt page; lit "pageSize" := AInt pageSize ]} in
     let params :=
       match q with
       | Some s => if truthy q then <[lit "q" := AStr s]> params else params
       | None => params
       end in
     r <- requests_get (PTCG_API_BASE ++ lit "/cards") (Some params) 20 ;;
     if bool_decide (status_code r ≠ 200)
     then raise (HTTPException (status_code r) (text r))
     else (data <- r_json r ;; ret data))
    (λ e, raise (HTTPException 500 (str_exn e))).

Definition get_card (card_id : str) : M JSON :=
  try_except
    (r <- requests_get (PTCG_API_BASE ++ lit "/cards/" ++ card_id) None 20 ;;
     if bool_decide (status_code r ≠ 200)
     then raise (HTTPException (status_code r) (text r))
     else r_json r)
    (λ e, raise (HTTPException 500 (str_exn e))).

Definition list_sets (page pageSize : Z) (orderBy : option str) : M JSON :=
  try_except
    (let params : gmap str arg :=
       {[ lit "page" := AInt page; lit "pageSize" := AInt pageSize ]} in
     let params :=
       match orderBy with
       | Some s => if truthy orderBy then <[lit "orderBy" := AStr s]> params else params
       | None => params
       end in
     r <- requests_get (PTCG_API_BASE ++ lit "/sets") (Some params) 20 ;;
     if bool_decide (status_code r ≠ 200)
     then raise (HTTPException (status_code r) (text r))
     else r_json r)
    (λ e, raise (HTTPException 500 (str_exn e))).

(** *** Prices (Cardmarket placeholder) *)

Definition get_cardmarket_price (card_id : str) : M JSON :=
  app_token <- getenv (lit "CARDMARKET_APP_TOKEN") ;;
  if negb (truthy app_token)
  then raise (HTTPException 501
                (lit "Cardmarket API not configured. Provide OAuth credentials to enable."))
  else raise (HTTPException 501 (lit "Cardmarket integration pending implementation.")).

(** *** Wishlist endpoints *)

Definition add_wishlist (item : WishlistIn.t) : M (gmap str str) :=
  try_except
    (doc_id <- create_document (lit "wishlistitem") item ;;
     ret {[ lit "id" := doc_id ]})
    (λ e, raise (HTTPException 500 (str_exn e))).

(** The loop body [if "_id" in d: d["id"] = str(d.pop("_id"))]. *)
Definition render_id (d : gmap str scalar) : gmap str scalar :=
  match d !! lit "_id" with
  | Some v => <[lit "id" := SStr (str_scalar v)]> (delete (lit "_id") d)
  | None => d
  end.

Definition list_wishlist (status : option str)
    : M (gmap str (list (gmap str scalar))) :=
  try_except
    (let filter_dict : gmap str scalar :=
       if truthy status then {[ lit "status" := dump_str status ]} else ∅ in
     docs <- get_documents (lit "wishlistitem") filter_dict ;;
     let docs := render_id <$> docs in
     ret {[ lit "items" := docs ]})
    (λ e, raise (HTTPException 500 (str_exn e))).

(** *** Routes *)

(** [GET /test] *)
Definition GET_test : World → HTTP (gmap str diag) * World :=
  serve always test_database.

(** [GET /api/cards?q=..&page=..&pageSize=..]: [page: int = 1],
    [pageSize: int = 24]. *)
Definition GET_api_cards (q : option str) (page pageSize : option Z)
    : World → HTTP JSON * World :=
  serve renders (search_cards q (default 1 page) (default 24 pageSize)).

(** [GET /api/cards/{card_id}] *)
Definition GET_api_card (card_id : str) : World → HTTP JSON * World :=
  serve renders (get_card card_id).

(** [GET /api/sets]: [page: int = 1], [pageSize: int = 50]. *)
Definition GET_api_sets (page pageSize : option Z) (orderBy : option str)
    : World → HTTP JSON * World :=
  serve renders (list_sets (default 1 page) (default 50 pageSize) orderBy).

(** [GET /api/prices/cardmarket/{card_id}]; the handler returns nothing
    that would have to be serialised. *)
Definition GET_api_prices_cardmarket (card_id : str)
    : World → HTTP JSON * World :=
  serve always (get_cardmarket_price card_id).

(** [POST /api/wishlist], whose body is an [item: WishlistIn]. *)
Definition POST_api_wishlist (p : Payload)
    : World → HTTP (gmap str str) * World :=
  λ w, match WishlistIn.validate p with
       | inl errs => (mkHTTP 422 (ValidationErrors errs), w)
       | inr item => serve always (add_wishlist item) w
       end.

(** [GET /api/wishlist?status=..] *)
Definition GET_api_wishlist (status : option str)
    : World → HTTP (gmap str (list (gmap str scalar))) * World :=
  serve renders_answer (list_wishlist status).

(** ** Vocabulary of the statements *)

(** The two details of the price route. *)
Definition NOT_CONFIGURED : str :=
  lit "Cardmarket API not configured. Provide OAuth credentials to enable.".
Definition PENDING : str :=
  lit "Cardmarket integration pending implementation.".

(** The world whose store is [d]. *)
Definition with_db (d : Database) (w : World) : World :=
  mkWorld (environ w) (catalog w) (sent w) (Some d).

(** The item a query returns for a stored record: the fields, and the
    identifier rendered as a string under ["id"]. *)
Definition rendered (r : Stored) : gmap str scalar :=
  <[lit "id" := SStr (str_oid (stored_id r))]>
    (delete (lit "_id") (stored_fields r)).

(** The stored status of a record equals [s]. *)
Definition has_status (s : str) (r : Stored) : bool :=
  bool_decide (stored_fields r !! lit "status" = Some (SStr s)).

(** The records of the wishlist collection, in store order. *)
Definition wishlist_of (d : Database) : list Stored :=
  default [] (collections d !! lit "wishlistitem").

(** What a proxy handler makes of the catalog's reply: the body on a 200
    whose JSON decodes, and a 500 in every other case, also for a reply of
    another status, whose [HTTPException] the handler's own [except] clause
    catches. *)
Definition relayed (rep : Reply) : outcome JSON :=
  match rep with
  | GetRaises msg => Raises (HTTPException 500 msg)
  | GetReturns r =>
      if bool_decide (status_code r ≠ 200)
      then Raises (HTTPException 500 (str_HTTPException (status_code r) (text r)))
      else match json r with
           | inl msg => Raises (HTTPException 500 msg)
           | inr data => Returns data
           end
  end.

(** The world after the GET [rq] went out. *)
Definition after_get (rq : Request) (w : World) : World :=
  mkWorld (environ w) (catalog w) (sent w ++ [rq]) (db w).

(** The query parameters [search_cards] builds. *)
Definition cards_params (q : option str) (page pageSize : Z) : gmap str arg :=
  let base : gmap str arg :=
    {[ lit "page" := AInt page; lit "pageSize" := AInt pageSize ]} in
  match q with
  | Some (c :: s) => <[lit "q" := AStr (c :: s)]> base
  | Some [] | None => base
  end.

(** The store [d] after the wishlist record [fields] was inserted under
    the next identifier. *)
Definition inserted (fields : gmap str scalar) (d : Database) : Database :=
  mkDatabase
    (<[lit "wishlistitem" :=
         wishlist_of d ++ [mkStored (mkObjectId (next_oid d)) fields]]>
       (collections d))
    (next_oid d + 1)%N None.

(** The key of a payload has a value of the type of the field. *)
Definition given {A} (f : field A) : bool :=
  match f with
  | Given _ => true
  | Missing | Null | Mistyped => false
  end.

(** The key of a payload has no value that the type of the field refuses. *)
Definition typed {A} (f : field A) : bool :=
  match f with
  | Mistyped => false
  | Missing | Null | Given _ => true
  end.

(** The payload passes [WishlistIn]: [card_id] and [name] are given and no
    other field has a value of another type. *)
Definition admitted (p : Payload) : bool :=
  given (p_card_id p) && given (p_name p) && typed (p_set_name p)
  && typed (p_set_id p) && typed (p_number p) && typed (p_image_url p)
  && typed (p_desired_price p) && typed (p_notes p) && typed (p_status p).


(** The answer to a wishlist query that returns [items]. *)
Definition answer_items (items : list (gmap str scalar))
    : HTTP (gmap str (list (gmap str scalar))) :=
  if forallb renders_dict items
  then mkHTTP 200 (Content {[ lit "items" := items ]})
  else mkHTTP 500 InternalServerError.

(** The GET each proxy route issues. *)
Definition cards_request (q : option str) (page pageSize : option Z) : Request :=
  mkRequest (PTCG_API_BASE ++ lit "/cards")
    (Some (cards_params q (default 1 page) (default 24 pageSize))) 20.

Definition card_request (card_id : str) : Request :=
  mkRequest (PTCG_API_BASE ++ lit "/cards/" ++ card_id) None 20.

(** The query parameters [list_sets] builds. *)
Definition sets_params (page pageSize : Z) (orderBy : option str) : gmap str arg :=
  let base : gmap str arg :=
    {[ lit "page" := AInt page; lit "pageSize" := AInt pageSize ]} in
  match orderBy with
  | Some (c :: s) => <[lit "orderBy" := AStr (c :: s)]> base
  | Some [] | None => base
  end.

Definition sets_request (page pageSize : option Z) (orderBy : option str) : Request :=
  mkRequest (PTCG_API_BASE ++ lit "/sets")
    (Some (sets_params (default 1 page) (default 50 pageSize) orderBy)) 20.

(** The answer [h] relays the reply [rep]: 200 with the decoded body of a
    200 that the framework can serialise, or else a 500 without content. *)
Definition relays (rep : Reply) (h : HTTP JSON) : Prop :=
  (∃ r data, rep = GetReturns r ∧ status_code r = 200 ∧ json r = inr data
             ∧ renders data = true ∧ h = mkHTTP 200 (Content data))
  ∨ ((∀ r data, rep = GetReturns r → status_code r = 200 → json r = inr data →
                renders data = false)
     ∧ code h = 500 ∧ ∀ data, body h ≠ Content data).

(** Going from [w] to [w'] one GET went out, [rq] with the timeout of 20
    seconds, and neither the environment nor the store changed. *)
Definition one_get (rq : Request) (w w' : World) : Prop :=
  sent w' = sent w ++ [rq] ∧ req_timeout rq = 20
  ∧ environ w' = environ w ∧ db w' = db w.

(** The names of the fields of a wishlist record. *)
Definition wishlist_fields : gset str :=
  list_to_set
    [ lit "card_id"; lit "name"; lit "set_name"; lit "set_id"; lit "number";
      lit "image_url"; lit "desired_price"; lit "notes"; lit "status" ].

(** What a record holds for an optional string, and for the price. *)
Definition stored_str (f : field str) : scalar :=
  match f with
  | Given s => SStr s
  | Missing | Null | Mistyped => SNone
  end.

Definition stored_float (f : field float) : scalar :=
  match f with
  | Given x => SFloat x
  | Missing | Null | Mistyped => SNone
  end.

(** The keys of the diagnostic dict. *)
Definition diag_keys : gset str :=
  list_to_set
    [ lit "backend"; lit "database"; lit "database_url"; lit "database_name";
      lit "connection_status"; lit "collections" ].

(** ** Readings of the specification that the code is compared with *)

(** The four credential variables the docstring of [get_cardmarket_price]
    lists. *)
Definition credential_variables : list str :=
  [ lit "CARDMARKET_APP_TOKEN"; lit "CARDMARKET_APP_SECRET";
    lit "CARDMARKET_ACCESS_TOKEN"; lit "CARDMARKET_ACCESS_TOKEN_SECRET" ].

(** A variable is set when the environment has it, whatever its value. *)
Definition is_set (env : gmap str str) (name : str) : bool :=
  bool_decide (is_Some (env !! name)).

(** "no credentials present": none of the four variables is set. *)
Definition no_credentials (env : gmap str str) : bool :=
  forallb (λ n, negb (is_set env n)) credential_variables.

(** The price route as the specification words it: 501, "not configured"
    when no credentials are present, "pending implementation" otherwise. *)
Definition cardmarket_as_stated (card_id : str) (w : World) : Prop :=
  (GET_api_prices_cardmarket card_id w).1 =
    mkHTTP 501 (Detail (if no_credentials (environ w)
                        then NOT_CONFIGURED else PENDING)).


(** The statuses the specification enumerates. *)
Definition enumerated_statuses : list str :=
  [ lit "watching"; lit "bought"; lit "removed" ].

(** ** Concrete worlds and payloads *)

(** The catalog answers every request 404 with the body [Not Found]. *)
Definition catalog_404 : Request → Reply :=
  λ _, GetReturns (mkResponse 404 (lit "Not Found") (inl (lit "Expecting value"))).

Definition w_404 : World := mkWorld ∅ catalog_404 [] None.

(** The catalog answers every request 200 with an empty result page. *)
Definition empty_page : JSON := JObject [ (lit "data", JArray []) ].

Definition catalog_ok : Request → Reply :=
  λ _, GetReturns (mkResponse 200 (lit "{}") (inr empty_page)).

Definition w_ok : World := mkWorld ∅ catalog_ok [] None.

(** Environments for the price route. *)
Definition w_secret_only : World :=
  mkWorld {[ lit "CARDMARKET_APP_SECRET" := lit "secret" ]} catalog_ok [] None.

Definition w_empty_token : World :=
  mkWorld {[ lit "CARDMARKET_APP_TOKEN" := [] ]} catalog_ok [] None.

Definition w_token : World :=
  mkWorld {[ lit "CARDMARKET_APP_TOKEN" := lit "token" ]} catalog_ok [] None.

Definition w_other_secrets : World :=
  mkWorld {[ lit "CARDMARKET_APP_TOKEN" := lit "other";
             lit "CARDMARKET_ACCESS_TOKEN" := lit "access" ]} catalog_404 [] None.

(** A connected, empty store. *)
Definition empty_db : Database := mkDatabase ∅ 0 None.

Definition w_live : World := mkWorld ∅ catalog_ok [] (Some empty_db).

(** A store whose server refuses every operation. *)
Definition w_down : World :=
  mkWorld ∅ catalog_ok [] (Some (mkDatabase ∅ 0 (Some (lit "connection refused")))).

Definition payload (price : field float) (status : field str) : Payload :=
  mkPayload (Given (lit "sv3-1")) (Given (lit "Bulbasaur"))
    Missing Missing Missing Missing price Missing status.

(** [{"card_id": "sv3-1", "name": "Bulbasaur", "desired_price": -5}] *)
Definition p_negative : Payload := payload (Given (Finite (Qc_of_Z (-5)))) Missing.

(** [{"card_id": "sv3-1", "name": "Bulbasaur", "status": "sold"}] *)
Definition p_sold : Payload := payload Missing (Given (lit "sold")).

(** [{"card_id": "sv3-1", "name": "Bulbasaur", "status": "bought"}] *)
Definition p_bought : Payload := payload Missing (Given (lit "bought")).

(** What [WishlistIn] makes of a payload of [payload]. *)
Definition item_of (price : option float) (status : option str) : WishlistIn.t :=
  WishlistIn.mk (lit "sv3-1") (lit "Bulbasaur") None None None None price None status.

Definition item_sold : WishlistIn.t := item_of None (Some (lit "sold")).
Definition item_bought : WishlistIn.t := item_of None (Some (lit "bought")).



(** The catalog cannot be reached: every GET raises. *)
Definition w_unreachable : World :=
  mkWorld ∅ (λ _, GetRaises (lit "Connection refused")) [] None.

(** The catalog answers 200 with a page that is not JSON. *)
Definition garbled : Response :=
  mkResponse 200 (lit "<html>") (inl (lit "Expecting value")).

Definition w_garbled : World := mkWorld ∅ (λ _, GetReturns garbled) [] None.

(** [{"card_id": "sv3-1", "name": "Bulbasaur", "desired_price": 3}] and
    what [WishlistItem] makes of it. *)
Definition p_priced : Payload := payload (Given (Finite (Qc_of_Z 3))) Missing.

Definition wi_priced : WishlistItem.t :=
  WishlistItem.mk (lit "sv3-1") (lit "Bulbasaur") None None None None
    (Some (Finite (Qc_of_Z 3))) None (lit "watching").

(** [DATABASE_URL] is set, to the empty string. *)
Definition w_empty_url : World :=
  mkWorld {[ lit "DATABASE_URL" := [] ]} catalog_ok [] None.







(** A dict as a query yields it. *)
Definition d_bought : gmap str scalar :=
  {[ lit "_id" := SOid (mkObjectId 1); lit "status" := SStr (lit "bought") ]}.





End Main.

(** One platform, to evaluate the handlers on: Starlette's [__str__]
    ([status: detail]); a float printer that is a stand-in, exact on
    integral values only; a NaN refused by a bound; and an encoder that
    serialises every document whose numbers are finite. *)
Definition sample_float (f : float) : str :=
  match f with
  | Finite q => str_int (Qnum (this q) / Zpos (Qden (this q))) ++ lit ".0"
  | NegZero => lit "-0.0"
  | Inf negative => if negative then lit "-inf" else lit "inf"
  | NaN => lit "nan"
  end.

Definition sample_platform : Platform := {|
  str_HTTPException := λ s d, str_int s ++ lit ": " ++ d;
  str_float := sample_float;
  no_connection_msg := lit "Database not available";
  nan_passes_bound := false;
  renders := finite_json;
  renders_finite := λ j Hj, Hj
|}.

Section Properties.

Context {platform : Platform}.

(** ** Properties *)

(** *** The catalog proxy *)

Lemma search_cards_run q page pageSize w :
  let rq := mkRequest (PTCG_API_BASE ++ lit "/cards")
              (Some (cards_params q page pageSize)) 20 in
  search_cards q page pageSize w = (relayed (catalog w rq), after_get rq w).
Proof.
  unfold search_cards, try_except, bind, requests_get, relayed, after_get.
  assert (Hp : match q with
               | Some s => if truthy q
                           then <[lit "q" := AStr s]>
                                  ({[ lit "page" := AInt page;
                                      lit "pageSize" := AInt pageSize ]} : gmap str arg)
                           else {[ lit "page" := AInt page;
                                   lit "pageSize" := AInt pageSize ]}
               | None => {[ lit "page" := AInt page; lit "pageSize" := AInt pageSize ]}
               end = cards_params q page pageSize).
  { destruct q as [[|c s]|]; reflexivity. }
  cbv zeta. rewrite Hp.
  destruct (catalog w _) as [msg|r]; [reflexivity|].
  destruct (bool_decide (status_code r ≠ 200)); [reflexivity|].
  unfold r_json, raise, ret. destruct (json r); reflexivity.
Qed.

Lemma get_card_run card_id w :
  let rq := mkRequest (PTCG_API_BASE ++ lit "/cards/" ++ card_id) None 20 in
  get_card card_id w = (relayed (catalog w rq), after_get rq w).
Proof.
  unfold get_card, try_except, bind, requests_get, relayed, after_get.
  cbv zeta.
  destruct (catalog w _) as [msg|r]; [reflexivity|].
  destruct (bool_decide (status_code r ≠ 200)); [reflexivity|].
  unfold r_json, raise, ret. destruct (json r); reflexivity.
Qed.

Lemma relayed_not_200 r :
  status_code r ≠ 200 →
  respond renders (relayed (GetReturns r)) =
    mkHTTP 500 (Detail (str_HTTPException (status_code r) (text r))).
Proof.
  intros H. unfold relayed. rewrite bool_decide_eq_true_2 by done. reflexivity.
Qed.

Lemma relayed_200 r data :
  status_code r = 200 → json r = inr data →
  respond renders (relayed (GetReturns r)) =
    if renders data then mkHTTP 200 (Content data)
    else mkHTTP 500 InternalServerError.
Proof.
  intros H Hj. unfold relayed.
  rewrite bool_decide_eq_false_2 by (intros Hn; by apply Hn).
  rewrite Hj. reflexivity.
Qed.

Lemma not_finite_not_rendered data : finite_json data = false → renders data = false.
Proof.
  intros Hf. destruct (renders data) eqn:Er; [|done].
  apply renders_finite in Er. congruence.
Qed.

(** A reply of any status other than 200 is answered 500. *)
Lemma GET_api_cards_not_200 q page pageSize w r :
  catalog w (mkRequest (PTCG_API_BASE ++ lit "/cards")
               (Some (cards_params q (default 1 page) (default 24 pageSize))) 20)
    = GetReturns r →
  status_code r ≠ 200 →
  (GET_api_cards q page pageSize w).1 =
    mkHTTP 500 (Detail (str_HTTPException (status_code r) (text r))).
Proof.
  intros Hr Hs. unfold GET_api_cards, serve. rewrite search_cards_run.
  cbv zeta. cbn [fst]. rewrite Hr. by apply relayed_not_200.
Qed.

(** Whatever the catalog's status, [GET /api/cards] answers 200 or 500. *)
Lemma GET_api_cards_code q page pageSize w :
  code (GET_api_cards q page pageSize w).1 = 200
  ∨ code (GET_api_cards q page pageSize w).1 = 500.
Proof.
  unfold GET_api_cards, serve. rewrite search_cards_run. cbv zeta.
  unfold relayed. destruct (catalog w _) as [msg|r]; simpl; [by right|].
  destruct (bool_decide _); simpl; [by right|].
  destruct (json r) as [msg|data]; simpl; [by right|].
  destruct (renders data); simpl; [by left|by right].
Qed.

(** C1: at an upstream 404 with body [Not Found] the three proxy routes do
    not answer 404 with that body: each answers 500, and its detail is the
    text [str()] makes of the intercepted [HTTPException]. *)
Theorem C1_upstream_404_answered_500 :
  (GET_api_cards (Some (lit "name:Charizard")) None None w_404).1
    = mkHTTP 500 (Detail (str_HTTPException 404 (lit "Not Found")))
  ∧ (GET_api_card (lit "sv3-1") w_404).1
    = mkHTTP 500 (Detail (str_HTTPException 404 (lit "Not Found")))
  ∧ (GET_api_sets None None None w_404).1
    = mkHTTP 500 (Detail (str_HTTPException 404 (lit "Not Found"))).
Proof. repeat split; reflexivity. Qed.


(** C9: an empty [status] gives [GET /api/wishlist] the result of no
    [status] at all, in every world, which is the result of the query with
    the empty filter; an empty [q] gives [GET /api/cards] the result of no
    [q] at all, and the GET it issues carries no [q]. *)
Theorem C9_empty_string_is_absent (page pageSize : option Z) (w : World) :
  GET_api_wishlist (Some []) w = GET_api_wishlist None w
  ∧ GET_api_wishlist (Some []) w =
      serve renders_answer
            (try_except
               (docs <- get_documents (lit "wishlistitem") ∅ ;;
                ret {[ lit "items" := render_id <$> docs ]})
               (λ e, raise (HTTPException 500 (str_exn e)))) w
  ∧ GET_api_cards (Some []) page pageSize w = GET_api_cards None page pageSize w
  ∧ ∃ params,
      sent (GET_api_cards (Some []) page pageSize w).2
        = sent w ++ [mkRequest (PTCG_API_BASE ++ lit "/cards") (Some params) 20]
      ∧ params !! lit "q" = None.
Proof.
  split; [reflexivity|]. split; [reflexivity|]. split; [reflexivity|].
  eexists. split.
  - unfold GET_api_cards, serve. rewrite search_cards_run. reflexivity.
  - unfold cards_params. rewrite lookup_insert_ne by done.
    by rewrite lookup_singleton_ne.
Qed.

(** *** The price placeholder *)

Lemma get_cardmarket_price_run card_id w :
  get_cardmarket_price card_id w =
    (Raises (HTTPException 501
               (if truthy (environ w !! lit "CARDMARKET_APP_TOKEN")
                then PENDING else NOT_CONFIGURED)), w).
Proof.
  unfold get_cardmarket_price, bind, getenv, raise.
  by destruct (truthy _).
Qed.

Lemma no_credentials_no_token env :
  no_credentials env = true → truthy (env !! lit "CARDMARKET_APP_TOKEN") = false.
Proof.
  unfold no_credentials, credential_variables, is_set. cbn [forallb].
  intros Hn. apply andb_prop in Hn as [Hn _].
  apply negb_true_iff, bool_decide_eq_false in Hn.
  destruct (env !! lit "CARDMARKET_APP_TOKEN") as [v|] eqn:E; [|done].
  exfalso. apply Hn. by exists v.
Qed.

(** C4 (amended): for every card and every world the price route answers
    501 with a detail, never a success, and leaves the world as it was; the
    detail says "not configured" when CARDMARKET_APP_TOKEN is unset or empty,
    which is the case whenever no credential variable is set, and "pending
    implementation" when that one variable has a non-empty value. *)
Theorem C4_cardmarket_always_501 (card_id : str) (w : World) :
  GET_api_prices_cardmarket card_id w =
    (mkHTTP 501 (Detail (if truthy (environ w !! lit "CARDMARKET_APP_TOKEN")
                         then PENDING else NOT_CONFIGURED)), w)
  ∧ (no_credentials (environ w) = true →
     (GET_api_prices_cardmarket card_id w).1 = mkHTTP 501 (Detail NOT_CONFIGURED)).
Proof.
  unfold GET_api_prices_cardmarket, serve. rewrite get_cardmarket_price_run.
  split; [reflexivity|].
  intros Hn. by rewrite (no_credentials_no_token _ Hn).
Qed.

(** C10 (amended): two runs of the price route that agree on whether
    CARDMARKET_APP_TOKEN has a non-empty value answer identically, whatever
    the card ids and the rest of the two worlds. *)
Theorem C10_depends_on_token_only (c1 c2 : str) (w1 w2 : World) :
  truthy (environ w1 !! lit "CARDMARKET_APP_TOKEN")
    = truthy (environ w2 !! lit "CARDMARKET_APP_TOKEN") →
  (GET_api_prices_cardmarket c1 w1).1 = (GET_api_prices_cardmarket c2 w2).1.
Proof.
  intros Ht. unfold GET_api_prices_cardmarket, serve.
  rewrite !get_cardmarket_price_run. cbn [fst respond]. by rewrite Ht.
Qed.

(** *** The diagnostic probe *)

Ltac lookup_lit :=
  repeat first
    [ rewrite lookup_insert_eq
    | rewrite lookup_insert_ne by done
    | rewrite lookup_singleton_eq
    | rewrite lookup_empty ].

(** C5 (amended): [GET /test] never raises: in every world it answers 200
    and leaves the world as it was.  The body has [database], which tells
    whether the handle is there and carries at most 80 characters of a
    listing error; [collections], at most ten names, the first ten the
    handle lists; [database_url] and [database_name], which read Set when
    the variable has a non-empty value and Not Set when it is unset or
    empty; and [backend] and [connection_status]. *)
Theorem C5_test_never_raises (w : World) :
  ∃ b : gmap str diag,
    GET_test w = (mkHTTP 200 (Content b), w)
    ∧ b !! lit "database" =
        Some (DStr match db w with
                   | None => WARNING_SIGN ++ lit "  Available but not initialized"
                   | Some d =>
                       match fault d with
                       | Some msg =>
                           WARNING_SIGN ++ lit "  Connected but Error: " ++ take 80 msg
                       | None => CHECK_MARK ++ lit " Connected & Working"
                       end
                   end)
    ∧ (∃ names : list str,
         b !! lit "collections" = Some (DNames names)
         ∧ (length names ≤ 10)%nat
         ∧ names = match db w with
                   | Some d =>
                       match fault d with
                       | Some _ => []
                       | None => take 10 (map_to_list (collections d)).*1
                       end
                   | None => []
                   end)
    ∧ b !! lit "database_url" =
        Some (DStr (if truthy (environ w !! lit "DATABASE_URL")
                    then CHECK_MARK ++ lit " Set"
                    else CROSS_MARK ++ lit " Not Set"))
    ∧ b !! lit "database_name" =
        Some (DStr (if truthy (environ w !! lit "DATABASE_NAME")
                    then CHECK_MARK ++ lit " Set"
                    else CROSS_MARK ++ lit " Not Set"))
    ∧ is_Some (b !! lit "backend")
    ∧ is_Some (b !! lit "connection_status").
Proof.
  unfold GET_test, serve, test_database, try_except, bind, world, getenv, ret.
  cbv zeta. cbn [list_to_map foldr curry fst snd].
  destruct (db w) as [d|] eqn:Edb.
  - unfold list_collection_names, raise, ret. destruct (fault d) as [msg|] eqn:Ef.
    + eexists. split; [reflexivity|].
      split_and!; lookup_lit; try done; try by eexists.
      exists []. lookup_lit. split_and!; [done|simpl; lia|done].
    + eexists. split; [reflexivity|].
      split_and!; lookup_lit; try done; try by eexists.
      eexists. lookup_lit. split_and!; [reflexivity| |reflexivity].
      unfold slice_to. rewrite length_take. lia.
  - eexists. split; [reflexivity|].
    split_and!; lookup_lit; try done; try by eexists.
    exists []. lookup_lit. split_and!; [done|simpl; lia|done].
Qed.

(** *** The wishlist *)

Lemma add_wishlist_run item w :
  add_wishlist item w =
    match db w with
    | None => (Raises (HTTPException 500 no_connection_msg), w)
    | Some d =>
        match fault d with
        | Some msg => (Raises (HTTPException 500 msg), w)
        | None =>
            (Returns {[ lit "id" := str_oid (mkObjectId (next_oid d)) ]},
             with_db (inserted (model_dump item) d) w)
        end
    end.
Proof.
  unfold add_wishlist, try_except, bind, create_document.
  destruct (db w) as [d|]; [|reflexivity].
  destruct (fault d); reflexivity.
Qed.

(** C7: a valid payload posted to a connected, working store is answered
    200 with the identifier under which the store then holds the new record;
    without a connection, and when the store fails, the answer is 500 and
    its detail is the message of the store's error; the store is then
    unchanged. *)
Theorem C7_add_wishlist (p : Payload) (item : WishlistIn.t) (w : World) :
  WishlistIn.validate p = inr item →
  POST_api_wishlist p w =
    match db w with
    | None => (mkHTTP 500 (Detail no_connection_msg), w)
    | Some d =>
        match fault d with
        | Some msg => (mkHTTP 500 (Detail msg), w)
        | None =>
            (mkHTTP 200 (Content {[ lit "id" := str_oid (mkObjectId (next_oid d)) ]}),
             with_db (inserted (model_dump item) d) w)
        end
    end.
Proof.
  intros Hv. unfold POST_api_wishlist, serve. rewrite Hv, add_wishlist_run.
  destruct (db w) as [d|]; [|reflexivity].
  destruct (fault d); reflexivity.
Qed.

Lemma matches_empty (d : gmap str scalar) : matches ∅ d = true.
Proof. unfold matches. by rewrite map_to_list_empty. Qed.

Lemma matches_status s r :
  matches {[ lit "status" := SStr s ]} (to_dict r) = has_status s r.
Proof.
  unfold matches, has_status, to_dict. rewrite map_to_list_singleton.
  cbn [forallb fst snd]. rewrite andb_true_r.
  by rewrite lookup_insert_ne.
Qed.

Lemma render_id_to_dict r : render_id (to_dict r) = rendered r.
Proof.
  unfold render_id, rendered, to_dict.
  by rewrite lookup_insert_eq, delete_insert_eq.
Qed.

Lemma query_rendered (f : gmap str scalar) (P : Stored → bool) (l : list Stored) :
  (∀ r, matches f (to_dict r) = P r) →
  render_id <$> filter (λ d, matches f d) (to_dict <$> l)
    = rendered <$> filter (λ r, P r) l.
Proof.
  intros HP. induction l as [|r l IH]; [done|].
  rewrite fmap_cons, !filter_cons, HP.
  destruct (P r); cbn [decide_rel decide Is_true_dec]; simpl.
  - rewrite render_id_to_dict. f_equal. exact IH.
  - exact IH.
Qed.

Lemma filter_all (l : list Stored) : filter (λ r, (λ _, true) r) l = l.
Proof.
  induction l as [|r l IH]; [done|].
  rewrite filter_cons_True by done. by f_equal.
Qed.

Lemma list_wishlist_run status w d :
  db w = Some d → fault d = None →
  list_wishlist status w =
    (Returns {[ lit "items" :=
                  rendered <$>
                    match status with
                    | Some (c :: s) => filter (λ r, has_status (c :: s) r) (wishlist_of d)
                    | Some [] | None => wishlist_of d
                    end ]}, w).
Proof.
  intros Hd Hf.
  unfold list_wishlist, try_except, bind, get_documents, ret. rewrite Hd, Hf.
  fold (wishlist_of d).
  destruct status as [[|c s]|]; cbn [truthy dump_str].
  - rewrite (query_rendered _ (λ _, true)) by (intros; apply matches_empty).
    by rewrite filter_all.
  - by rewrite (query_rendered _ (has_status (c :: s))) by (intros; apply matches_status).
  - rewrite (query_rendered _ (λ _, true)) by (intros; apply matches_empty).
    by rewrite filter_all.
Qed.

Lemma renders_answer_items (l : list (gmap str scalar)) :
  respond renders_answer (Returns ({[ lit "items" := l ]} : gmap str (list (gmap str scalar))))
    = answer_items l.
Proof.
  unfold respond, answer_items, renders_answer.
  destruct (forallb renders_dict l) eqn:El.
  - rewrite bool_decide_eq_true_2; [done|].
    by apply map_Forall_singleton.
  - rewrite bool_decide_eq_false_2; [done|].
    intros Hall. apply map_Forall_singleton in Hall. congruence.
Qed.


(** *** Validation of the wishlist payload *)

(** C2: the payload with [desired_price: -5] is rejected by the model
    [WishlistItem] of [schemas.py] but accepted by [WishlistIn], the model
    the route validates with; over a connected store the route answers 200
    and the store holds the record, price -5 included. *)
Theorem C2_negative_price_is_stored :
  WishlistItem.validate p_negative = inl [lit "desired_price"]
  ∧ ∃ item,
      WishlistIn.validate p_negative = inr item
      ∧ WishlistIn.desired_price item = Some (Finite (Qc_of_Z (-5)))
      ∧ model_dump item !! lit "desired_price" = Some (SFloat (Finite (Qc_of_Z (-5))))
      ∧ POST_api_wishlist p_negative w_live =
          (mkHTTP 200 (Content {[ lit "id" := str_oid (mkObjectId 0) ]}),
           with_db (mkDatabase
                      {[ lit "wishlistitem" := [mkStored (mkObjectId 0) (model_dump item)] ]}
                      1 None) w_live).
Proof.
  split; [by vm_compute|].
  eexists. split; [reflexivity|].
  split_and!; [reflexivity|by vm_compute|reflexivity].
Qed.

(** C3: the payload with the status [sold], which is none of [watching],
    [bought] and [removed], is accepted by [WishlistIn], the model the
    route validates with; over a connected store the route answers 200 and
    the store holds the record with the status [sold]. *)
Theorem C3_sold_is_accepted :
  (lit "sold" ∉ enumerated_statuses)
  ∧ WishlistIn.validate p_sold = inr item_sold
  ∧ WishlistIn.status item_sold = Some (lit "sold")
  ∧ model_dump item_sold !! lit "status" = Some (SStr (lit "sold"))
  ∧ POST_api_wishlist p_sold w_live =
      (mkHTTP 200 (Content {[ lit "id" := str_oid (mkObjectId 0) ]}),
       with_db (mkDatabase
                  {[ lit "wishlistitem" :=
                       [mkStored (mkObjectId 0) (model_dump item_sold)] ]}
                  1 None) w_live).
Proof.
  split_and!; [|reflexivity|reflexivity|by vm_compute|reflexivity].
  unfold enumerated_statuses. rewrite !not_elem_of_cons.
  split_and!; [done..|apply not_elem_of_nil].
Qed.

(** *** More on the catalog proxy *)

Lemma list_sets_run page pageSize orderBy w :
  let rq := mkRequest (PTCG_API_BASE ++ lit "/sets")
              (Some (sets_params page pageSize orderBy)) 20 in
  list_sets page pageSize orderBy w = (relayed (catalog w rq), after_get rq w).
Proof.
  unfold list_sets, try_except, bind, requests_get, relayed, after_get.
  assert (Hp : match orderBy with
               | Some s => if truthy orderBy
                           then <[lit "orderBy" := AStr s]>
                                  ({[ lit "page" := AInt page;
                                      lit "pageSize" := AInt pageSize ]} : gmap str arg)
                           else {[ lit "page" := AInt page;
                                   lit "pageSize" := AInt pageSize ]}
               | None => {[ lit "page" := AInt page; lit "pageSize" := AInt pageSize ]}
               end = sets_params page pageSize orderBy).
  { destruct orderBy as [[|c s]|]; reflexivity. }
  cbv zeta. rewrite Hp.
  destruct (catalog w _) as [msg|r]; [reflexivity|].
  destruct (bool_decide (status_code r ≠ 200)); [reflexivity|].
  unfold r_json, raise, ret. destruct (json r); reflexivity.
Qed.

Lemma GET_api_cards_run q page pageSize w :
  GET_api_cards q page pageSize w =
    (respond renders (relayed (catalog w (cards_request q page pageSize))),
     after_get (cards_request q page pageSize) w).
Proof. unfold GET_api_cards, serve. by rewrite search_cards_run. Qed.

Lemma GET_api_card_run card_id w :
  GET_api_card card_id w =
    (respond renders (relayed (catalog w (card_request card_id))),
     after_get (card_request card_id) w).
Proof. unfold GET_api_card, serve. by rewrite get_card_run. Qed.

Lemma GET_api_sets_run page pageSize orderBy w :
  GET_api_sets page pageSize orderBy w =
    (respond renders (relayed (catalog w (sets_request page pageSize orderBy))),
     after_get (sets_request page pageSize orderBy) w).
Proof. unfold GET_api_sets, serve. by rewrite list_sets_run. Qed.

Lemma relayed_undecodable r msg :
  status_code r = 200 → json r = inl msg →
  respond renders (relayed (GetReturns r)) = mkHTTP 500 (Detail msg).
Proof.
  intros Hs Hj. unfold relayed.
  rewrite bool_decide_eq_false_2 by (intros Hn; by apply Hn).
  by rewrite Hj.
Qed.

Lemma relayed_relays rep : relays rep (respond renders (relayed rep)).
Proof.
  unfold relays, relayed. destruct rep as [msg|r].
  - right. split; [discriminate|]. by split.
  - destruct (bool_decide (status_code r ≠ 200)) eqn:Es.
    + apply bool_decide_eq_true in Es. right. split; [|by split].
      intros r' data [= <-] Hs. done.
    + apply bool_decide_eq_false in Es.
      assert (Hs : status_code r = 200) by (destruct (decide (status_code r = 200)); done).
      destruct (json r) as [msg|data] eqn:Ej.
      * right. split; [|by split]. intros r' data [= <-] _. congruence.
      * cbn [respond]. destruct (renders data) eqn:Er.
        -- left. by exists r, data.
        -- right. split; [|by split]. intros r' data' [= <-] _. congruence.
Qed.

Lemma after_get_one rq w : req_timeout rq = 20 → one_get rq w (after_get rq w).
Proof. intros Ht. by unfold one_get, after_get. Qed.

(** X1: when [requests.get] raises (no connection, timeout), each proxy
    route answers 500 and its detail is the text of that error. *)
Theorem proxy_transport_error (w : World) (msg : str) :
  (∀ q page pageSize,
     catalog w (cards_request q page pageSize) = GetRaises msg →
     (GET_api_cards q page pageSize w).1 = mkHTTP 500 (Detail msg))
  ∧ (∀ card_id,
       catalog w (card_request card_id) = GetRaises msg →
       (GET_api_card card_id w).1 = mkHTTP 500 (Detail msg))
  ∧ (∀ page pageSize orderBy,
       catalog w (sets_request page pageSize orderBy) = GetRaises msg →
       (GET_api_sets page pageSize orderBy w).1 = mkHTTP 500 (Detail msg)).
Proof.
  split_and!.
  - intros q page pageSize Hc. rewrite GET_api_cards_run. cbn [fst]. by rewrite Hc.
  - intros card_id Hc. rewrite GET_api_card_run. cbn [fst]. by rewrite Hc.
  - intros page pageSize orderBy Hc. rewrite GET_api_sets_run. cbn [fst].
    by rewrite Hc.
Qed.

(** X2: when the catalog answers 200 with a body that does not decode as
    JSON, each proxy route answers 500 and its detail is the decoder's
    message. *)
Theorem proxy_undecodable_body (w : World) (r : Response) (msg : str) :
  status_code r = 200 → json r = inl msg →
  (∀ q page pageSize,
     catalog w (cards_request q page pageSize) = GetReturns r →
     (GET_api_cards q page pageSize w).1 = mkHTTP 500 (Detail msg))
  ∧ (∀ card_id,
       catalog w (card_request card_id) = GetReturns r →
       (GET_api_card card_id w).1 = mkHTTP 500 (Detail msg))
  ∧ (∀ page pageSize orderBy,
       catalog w (sets_request page pageSize orderBy) = GetReturns r →
       (GET_api_sets page pageSize orderBy w).1 = mkHTTP 500 (Detail msg)).
Proof.
  intros Hs Hj. split_and!.
  - intros q page pageSize Hc. rewrite GET_api_cards_run. cbn [fst]. rewrite Hc.
    by apply relayed_undecodable.
  - intros card_id Hc. rewrite GET_api_card_run. cbn [fst]. rewrite Hc.
    by apply relayed_undecodable.
  - intros page pageSize orderBy Hc. rewrite GET_api_sets_run. cbn [fst].
    rewrite Hc. by apply relayed_undecodable.
Qed.

(** X3: for a request that reaches the handler, a proxy route answers
    200 with the decoded body exactly when the catalog answered 200 with a
    body that decodes and that the framework can serialise; in every other
    case it answers 500, with a detail or without one, and no content. *)
Theorem proxy_answers_200_or_500 (w : World) :
  (∀ q page pageSize,
     relays (catalog w (cards_request q page pageSize))
       (GET_api_cards q page pageSize w).1)
  ∧ (∀ card_id,
       relays (catalog w (card_request card_id)) (GET_api_card card_id w).1)
  ∧ (∀ page pageSize orderBy,
       relays (catalog w (sets_request page pageSize orderBy))
         (GET_api_sets page pageSize orderBy w).1).
Proof.
  split_and!; intros.
  - rewrite GET_api_cards_run. apply relayed_relays.
  - rewrite GET_api_card_run. apply relayed_relays.
  - rewrite GET_api_sets_run. apply relayed_relays.
Qed.

(** X4: whatever the catalog does, a proxy route issues exactly one GET,
    with a timeout of 20 seconds, and changes neither the environment nor
    the store. *)
Theorem proxy_issues_one_get (w : World) :
  (∀ q page pageSize,
     one_get (cards_request q page pageSize) w (GET_api_cards q page pageSize w).2)
  ∧ (∀ card_id, one_get (card_request card_id) w (GET_api_card card_id w).2)
  ∧ (∀ page pageSize orderBy,
       one_get (sets_request page pageSize orderBy) w
         (GET_api_sets page pageSize orderBy w).2).
Proof.
  split_and!; intros.
  - rewrite GET_api_cards_run. by apply after_get_one.
  - rewrite GET_api_card_run. by apply after_get_one.
  - rewrite GET_api_sets_run. by apply after_get_one.
Qed.

(** X6: [GET /api/sets] issues one GET to [/sets] of the catalog whose
    parameters are exactly [page] (default 1), [pageSize] (default 50) and
    [orderBy] when it is neither null nor empty; an empty [orderBy] gives
    the result of none; a 200 with a JSON body that the framework can
    serialise is answered 200 with that body, and a body it cannot
    serialise, as is every body that holds a number that is not finite, is
    answered 500 without detail. *)
Theorem sets_forwarding (page pageSize : option Z) (orderBy : option str) (w : World) :
  let base : gmap str arg :=
    {[ lit "page" := AInt (default 1 page);
       lit "pageSize" := AInt (default 50 pageSize) ]} in
  let params :=
    match orderBy with
    | Some (c :: s) => <[lit "orderBy" := AStr (c :: s)]> base
    | Some [] | None => base
    end in
  let rq := mkRequest (PTCG_API_BASE ++ lit "/sets") (Some params) 20 in
  sent (GET_api_sets page pageSize orderBy w).2 = sent w ++ [rq]
  ∧ GET_api_sets page pageSize (Some []) w = GET_api_sets page pageSize None w
  ∧ ∀ r data,
      catalog w rq = GetReturns r → status_code r = 200 → json r = inr data →
      (GET_api_sets page pageSize orderBy w).1 =
        (if renders data then mkHTTP 200 (Content data)
         else mkHTTP 500 InternalServerError)
      ∧ (finite_json data = false →
         (GET_api_sets page pageSize orderBy w).1 = mkHTTP 500 InternalServerError).
Proof.
  cbv zeta. rewrite GET_api_sets_run. split_and!; [reflexivity..|].
  intros r data Hr Hs Hj. cbn [fst]. unfold sets_request, sets_params.
  rewrite Hr, (relayed_200 r data Hs Hj). split; [reflexivity|].
  intros Hf. by rewrite (not_finite_not_rendered data Hf).
Qed.

(** *** More on the wishlist *)

Lemma list_wishlist_fails status w :
  match db w with
  | None =>
      list_wishlist status w = (Raises (HTTPException 500 no_connection_msg), w)
  | Some d =>
      match fault d with
      | Some msg => list_wishlist status w = (Raises (HTTPException 500 msg), w)
      | None => True
      end
  end.
Proof.
  unfold list_wishlist, try_except, bind, get_documents.
  destruct (db w) as [d|]; [|reflexivity].
  destruct (fault d); [reflexivity|done].
Qed.

(** X7: [GET /api/wishlist] only reads: whatever the status and the state
    of the store, the world after it is the world before; and
    [POST /api/wishlist] issues no GET and leaves the environment alone. *)
Theorem wishlist_touches_only_the_store (w : World) :
  (∀ status, (GET_api_wishlist status w).2 = w)
  ∧ (∀ p, sent (POST_api_wishlist p w).2 = sent w
          ∧ environ (POST_api_wishlist p w).2 = environ w).
Proof.
  split.
  - intros status. unfold GET_api_wishlist, serve.
    pose proof (list_wishlist_fails status w) as Hf.
    destruct (db w) as [d|] eqn:Ed.
    + destruct (fault d) as [msg|] eqn:Ef.
      * by rewrite Hf.
      * by rewrite (list_wishlist_run status w d Ed Ef).
    + by rewrite Hf.
  - intros p. unfold POST_api_wishlist, serve.
    destruct (WishlistIn.validate p) as [errs|item]; [done|].
    rewrite add_wishlist_run.
    destruct (db w) as [d|]; [destruct (fault d)|]; done.
Qed.

(** X8: without a connection [GET /api/wishlist] answers 500 with the
    accessor's message, and over a failing store 500 with the message of
    the store's error, whatever the status asked for; over a working store
    it answers 200 with items, or 500 without detail when an item cannot be
    serialised. *)
Theorem list_wishlist_store_failure (status : option str) (w : World) :
  match db w with
  | None =>
      GET_api_wishlist status w = (mkHTTP 500 (Detail no_connection_msg), w)
  | Some d =>
      match fault d with
      | Some msg => GET_api_wishlist status w = (mkHTTP 500 (Detail msg), w)
      | None =>
          ∃ items,
            (GET_api_wishlist status w).1 =
              if forallb renders_dict items
              then mkHTTP 200 (Content {[ lit "items" := items ]})
              else mkHTTP 500 InternalServerError
      end
  end.
Proof.
  unfold GET_api_wishlist, serve.
  pose proof (list_wishlist_fails status w) as Hf.
  destruct (db w) as [d|] eqn:Ed.
  - destruct (fault d) as [msg|] eqn:Ef.
    + by rewrite Hf.
    + rewrite (list_wishlist_run status w d Ed Ef). cbn [fst].
      rewrite renders_answer_items. by eexists.
  - by rewrite Hf.
Qed.

(** X10: the rendering of the identifier, on any dict: the result never
    has [_id]; a dict without [_id] is returned as it is; a dict with one
    gets its text under [id]; every other key keeps its value; and
    rendering twice is rendering once. *)
Theorem render_id_properties (d : gmap str scalar) :
  render_id d !! lit "_id" = None
  ∧ (d !! lit "_id" = None → render_id d = d)
  ∧ (∀ v, d !! lit "_id" = Some v →
          render_id d !! lit "id" = Some (SStr (str_scalar v)))
  ∧ (∀ k, k ≠ lit "id" → k ≠ lit "_id" → render_id d !! k = d !! k)
  ∧ render_id (render_id d) = render_id d.
Proof.
  assert (Hno : render_id d !! lit "_id" = None).
  { unfold render_id. destruct (d !! lit "_id") as [v|] eqn:E; [|exact E].
    rewrite lookup_insert_ne by done. by rewrite lookup_delete_eq. }
  split_and!.
  - exact Hno.
  - intros E. unfold render_id. by rewrite E.
  - intros v E. unfold render_id. rewrite E. by rewrite lookup_insert_eq.
  - intros k Hid H_id. unfold render_id.
    destruct (d !! lit "_id") as [v|] eqn:E; [|done].
    rewrite lookup_insert_ne by done. by rewrite lookup_delete_ne.
  - unfold render_id at 1. by rewrite Hno.
Qed.

(** The validators and the two tests on a key. *)



Lemma required_Some {A} (f : field A) a : required f = Some a → f = Given a.
Proof. destruct f; by intros [= <-]. Qed.

Lemma required_given {A} (f : field A) : given f = true → ∃ a, f = Given a.
Proof. destruct f; try discriminate. by eexists. Qed.

Lemma optional_typed {A} dflt (f : field A) v :
  optional dflt f = Some v → typed f = true.
Proof. by destruct f. Qed.

Lemma typed_optional {A} dflt (f : field A) :
  typed f = true → ∃ v, optional dflt f = Some v.
Proof. destruct f; try discriminate; by eexists. Qed.

Lemma admitted_spec p :
  admitted p = true ↔
  given (p_card_id p) = true ∧ given (p_name p) = true
  ∧ typed (p_set_name p) = true ∧ typed (p_set_id p) = true
  ∧ typed (p_number p) = true ∧ typed (p_image_url p) = true
  ∧ typed (p_desired_price p) = true ∧ typed (p_notes p) = true
  ∧ typed (p_status p) = true.
Proof. unfold admitted. rewrite !andb_true_iff. tauto. Qed.





Lemma dump_str_optional (f : field str) v :
  optional None f = Some v → dump_str v = stored_str f.
Proof. destruct f; by intros [= <-]. Qed.

Lemma dump_float_optional (f : field float) v :
  optional None f = Some v → dump_float v = stored_float f.
Proof. destruct f; by intros [= <-]. Qed.

(** X13: the record made of an accepted payload has exactly the nine
    fields of the model: [card_id] and [name] as given, every optional field
    with the value pydantic read or [None] when missing or null, and
    [status] with its value, [None] for null, and [watching] when
    missing. *)
Theorem accepted_record (p : Payload) (item : WishlistIn.t) :
  WishlistIn.validate p = inr item →
  dom (model_dump item) = wishlist_fields
  ∧ ∃ c n,
      p_card_id p = Given c ∧ p_name p = Given n
      ∧ model_dump item =
          list_to_map
            [ (lit "card_id", SStr c);
              (lit "name", SStr n);
              (lit "set_name", stored_str (p_set_name p));
              (lit "set_id", stored_str (p_set_id p));
              (lit "number", stored_str (p_number p));
              (lit "image_url", stored_str (p_image_url p));
              (lit "desired_price", stored_float (p_desired_price p));
              (lit "notes", stored_str (p_notes p));
              (lit "status", match p_status p with
                             | Missing => SStr (lit "watching")
                             | Given s => SStr s
                             | Null | Mistyped => SNone
                             end) ].
Proof.
  intros Hv. split.
  - unfold model_dump, WishlistIn.dump, wishlist_fields.
    cbn [list_to_map foldr curry fst snd list_to_set].
    rewrite !dom_insert_L, dom_empty_L. reflexivity.
  - revert Hv. unfold WishlistIn.validate. cbv zeta.
    destruct (required (p_card_id p)) as [c|] eqn:E1; [|by intros [=]].
    destruct (required (p_name p)) as [n|] eqn:E2; [|by intros [=]].
    destruct (optional None (p_set_name p)) as [sn|] eqn:E3; [|by intros [=]].
    destruct (optional None (p_set_id p)) as [si|] eqn:E4; [|by intros [=]].
    destruct (optional None (p_number p)) as [nu|] eqn:E5; [|by intros [=]].
    destruct (optional None (p_image_url p)) as [iu|] eqn:E6; [|by intros [=]].
    destruct (optional None (p_desired_price p)) as [dp|] eqn:E7; [|by intros [=]].
    destruct (optional None (p_notes p)) as [no|] eqn:E8; [|by intros [=]].
    destruct (optional (Some (lit "watching")) (p_status p)) as [st|] eqn:E9;
      [|by intros [=]].
    intros [= <-]. apply required_Some in E1, E2. exists c, n.
    split_and!; [done..|].
    unfold model_dump, WishlistIn.dump. cbn [WishlistIn.card_id WishlistIn.name
      WishlistIn.set_name WishlistIn.set_id WishlistIn.number WishlistIn.image_url
      WishlistIn.desired_price WishlistIn.notes WishlistIn.status].
    rewrite (dump_str_optional _ _ E3), (dump_str_optional _ _ E4),
      (dump_str_optional _ _ E5), (dump_str_optional _ _ E6),
      (dump_float_optional _ _ E7), (dump_str_optional _ _ E8).
    destruct (p_status p); try discriminate; by injection E9 as <-.
Qed.

(** *** The schemas of [schemas.py] *)

Lemma optional_ge0_Some (f : field float) v :
  optional_ge0 f = Some v →
  optional None f = Some v ∧ ∀ x, f = Given x → ge0 x = true.
Proof.
  destruct f as [| |x|]; cbn [optional_ge0 optional]; try discriminate.
  - intros [= <-]. by split.
  - intros [= <-]. by split.
  - destruct (ge0 x) eqn:Ex; [|discriminate]. intros [= <-].
    split; [done|]. by intros ? [= <-].
Qed.

Lemma optional_ge0_intro (f : field float) :
  typed f = true → (∀ x, f = Given x → ge0 x = true) →
  ∃ v, optional_ge0 f = Some v.
Proof.
  destruct f as [| |x|]; cbn [optional_ge0 optional]; try discriminate;
    intros _ Hx; try by eexists.
  rewrite (Hx x eq_refl). by eexists.
Qed.

Lemma defaulted_Some {A} (dflt : A) (f : field A) s :
  defaulted dflt f = Some s →
  typed f = true ∧ f ≠ Null ∧ optional (Some dflt) f = Some (Some s).
Proof. destruct f; try discriminate; intros [= <-]; by split_and!. Qed.

Lemma defaulted_intro {A} (dflt : A) (f : field A) :
  typed f = true → f ≠ Null → ∃ s, defaulted dflt f = Some s.
Proof. destruct f; try discriminate; try done; by eexists. Qed.

Lemma ge0_spec (x : float) :
  ge0 x = true →
  match x with
  | Finite q => (0 ≤ q)%Qc
  | NegZero => True
  | Inf negative => negative = false
  | NaN => nan_passes_bound = true
  end.
Proof.
  destruct x as [q| |negative|]; cbn [ge0]; try done.
  - by intros ?%bool_decide_eq_true.
  - by destruct negative.
Qed.

(** X15: [WishlistItem] accepts a payload exactly when [WishlistIn] does,
    the price, if given, is not below zero, and [status] is not null; the
    price of an item it accepts is a number that is not negative, the
    negative zero, or the positive infinity (or a NaN, where pydantic lets
    a NaN through a bound). *)
Theorem WishlistItem_accepts_iff (p : Payload) :
  ((∃ it, WishlistItem.validate p = inr it) ↔
   admitted p = true
   ∧ (∀ x, p_desired_price p = Given x → ge0 x = true)
   ∧ p_status p ≠ Null)
  ∧ ∀ it, WishlistItem.validate p = inr it →
          ∀ x, WishlistItem.desired_price it = Some x →
               match x with
               | Finite q => (0 ≤ q)%Qc
               | NegZero => True
               | Inf negative => negative = false
               | NaN => nan_passes_bound = true
               end.
Proof.
  unfold WishlistItem.validate. cbv zeta. split; [split|].
  - intros [it Hv]. revert Hv.
    destruct (required (p_card_id p)) as [c|] eqn:E1; [|by intros [=]].
    destruct (required (p_name p)) as [n|] eqn:E2; [|by intros [=]].
    destruct (optional None (p_set_name p)) as [sn|] eqn:E3; [|by intros [=]].
    destruct (optional None (p_set_id p)) as [si|] eqn:E4; [|by intros [=]].
    destruct (optional None (p_number p)) as [nu|] eqn:E5; [|by intros [=]].
    destruct (optional None (p_image_url p)) as [iu|] eqn:E6; [|by intros [=]].
    destruct (optional_ge0 (p_desired_price p)) as [dp|] eqn:E7; [|by intros [=]].
    destruct (optional None (p_notes p)) as [no|] eqn:E8; [|by intros [=]].
    destruct (defaulted (lit "watching") (p_status p)) as [st|] eqn:E9;
      [|by intros [=]].
    intros _. apply required_Some in E1, E2.
    apply optional_typed in E3, E4, E5, E6, E8.
    apply optional_ge0_Some in E7 as [E7 Hge]. apply optional_typed in E7.
    apply defaulted_Some in E9 as (E9 & Hnull & _).
    split_and!; [|done..]. apply admitted_spec. rewrite E1, E2. by split_and!.
  - intros (Ha & Hge & Hnull). apply admitted_spec in Ha
      as (H1 & H2 & H3 & H4 & H5 & H6 & H7 & H8 & H9).
    apply required_given in H1 as [c H1], H2 as [n H2].
    apply (typed_optional None) in H3 as [sn H3], H4 as [si H4], H5 as [nu H5],
      H6 as [iu H6], H8 as [no H8].
    destruct (optional_ge0_intro _ H7 Hge) as [dp Hdp].
    destruct (defaulted_intro (lit "watching") _ H9 Hnull) as [st Hst].
    rewrite H1, H2, H3, H4, H5, H6, Hdp, H8, Hst. by eexists.
  - intros it.
    destruct (required (p_card_id p)) as [c|] eqn:E1; [|by intros [=]].
    destruct (required (p_name p)) as [n|] eqn:E2; [|by intros [=]].
    destruct (optional None (p_set_name p)) as [sn|] eqn:E3; [|by intros [=]].
    destruct (optional None (p_set_id p)) as [si|] eqn:E4; [|by intros [=]].
    destruct (optional None (p_number p)) as [nu|] eqn:E5; [|by intros [=]].
    destruct (optional None (p_image_url p)) as [iu|] eqn:E6; [|by intros [=]].
    destruct (optional_ge0 (p_desired_price p)) as [dp|] eqn:E7; [|by intros [=]].
    destruct (optional None (p_notes p)) as [no|] eqn:E8; [|by intros [=]].
    destruct (defaulted (lit "watching") (p_status p)) as [st|] eqn:E9;
      [|by intros [=]].
    intros [= <-] x. cbn [WishlistItem.desired_price]. intros ->.
    apply optional_ge0_Some in E7 as [E7 Hge]. apply ge0_spec, Hge.
    destruct (p_desired_price p); try discriminate. by injection E7 as ->.
Qed.

(** X16: every payload [WishlistItem] accepts, [WishlistIn] accepts too,
    with the same value in every field. *)
Theorem WishlistIn_accepts_more (p : Payload) (it : WishlistItem.t) :
  WishlistItem.validate p = inr it →
  ∃ item,
    WishlistIn.validate p = inr item
    ∧ WishlistIn.card_id item = WishlistItem.card_id it
    ∧ WishlistIn.name item = WishlistItem.name it
    ∧ WishlistIn.set_name item = WishlistItem.set_name it
    ∧ WishlistIn.set_id item = WishlistItem.set_id it
    ∧ WishlistIn.number item = WishlistItem.number it
    ∧ WishlistIn.image_url item = WishlistItem.image_url it
    ∧ WishlistIn.desired_price item = WishlistItem.desired_price it
    ∧ WishlistIn.notes item = WishlistItem.notes it
    ∧ WishlistIn.status item = Some (WishlistItem.status it).
Proof.
  unfold WishlistItem.validate, WishlistIn.validate. cbv zeta.
  destruct (required (p_card_id p)) as [c|] eqn:E1; [|by intros [=]].
  destruct (required (p_name p)) as [n|] eqn:E2; [|by intros [=]].
  destruct (optional None (p_set_name p)) as [sn|] eqn:E3; [|by intros [=]].
  destruct (optional None (p_set_id p)) as [si|] eqn:E4; [|by intros [=]].
  destruct (optional None (p_number p)) as [nu|] eqn:E5; [|by intros [=]].
  destruct (optional None (p_image_url p)) as [iu|] eqn:E6; [|by intros [=]].
  destruct (optional_ge0 (p_desired_price p)) as [dp|] eqn:E7; [|by intros [=]].
  destruct (optional None (p_notes p)) as [no|] eqn:E8; [|by intros [=]].
  destruct (defaulted (lit "watching") (p_status p)) as [st|] eqn:E9;
    [|by intros [=]].
  intros [= <-].
  apply optional_ge0_Some in E7 as [-> _].
  apply defaulted_Some in E9 as (_ & _ & ->).
  eexists. split_and!; reflexivity.
Qed.





(** *** More on the diagnostic probe *)

(** X19: the body of [GET /test] has exactly six keys; [backend] always
    reads running, and [connection_status] reads [Connected] exactly when
    the handle is there and listed its collections, [Not Connected]
    otherwise. *)
Theorem test_connection_status (w : World) :
  ∃ b : gmap str diag,
    (GET_test w).1 = mkHTTP 200 (Content b)
    ∧ dom b = diag_keys
    ∧ b !! lit "backend" = Some (DStr (CHECK_MARK ++ lit " Running"))
    ∧ b !! lit "connection_status" =
        Some (DStr match db w with
                   | Some d =>
                       match fault d with
                       | None => lit "Connected"
                       | Some _ => lit "Not Connected"
                       end
                   | None => lit "Not Connected"
                   end).
Proof.
  unfold GET_test, serve, test_database, try_except, bind, world, getenv, ret.
  cbv zeta. cbn [list_to_map foldr curry fst snd].
  destruct (db w) as [d|] eqn:Edb;
    [unfold list_collection_names, raise, ret; destruct (fault d) as [msg|] eqn:Ef|];
    (eexists; split; [reflexivity|]; split_and!; [|lookup_lit; done..]);
    repeat (rewrite dom_insert_lookup_L by (lookup_lit; eauto));
    rewrite !dom_insert_L, dom_empty_L; reflexivity.
Qed.

(** X20: whatever error the listing raises, however long its message,
    the [database] field of [GET /test] is a string of at most 105
    characters. *)
Theorem test_database_field_bounded (w : World) :
  ∃ (b : gmap str diag) (s : str),
    (GET_test w).1 = mkHTTP 200 (Content b)
    ∧ b !! lit "database" = Some (DStr s)
    ∧ (length s ≤ 105)%nat.
Proof.
  unfold GET_test, serve, test_database, try_except, bind, world, getenv, ret.
  cbv zeta. cbn [list_to_map foldr curry fst snd].
  destruct (db w) as [d|] eqn:Edb;
    [unfold list_collection_names, raise, ret; destruct (fault d) as [msg|] eqn:Ef|];
    (do 2 eexists; split; [reflexivity|]; split; [lookup_lit; reflexivity|]).
  - cbn [str_exn]. rewrite !length_app. unfold slice_to. rewrite length_take.
    change (length WARNING_SIGN) with 2%nat.
    change (length (lit "  Connected but Error: ")) with 23%nat. lia.
  - vm_compute. lia.
  - vm_compute. lia.
Qed.

End Properties.

(** ** The properties at concrete inputs *)

(** C4, in a world without any credential variable. *)
Lemma C4_cardmarket_always_501_witness :
  no_credentials (environ w_ok) = true
  ∧ (GET_api_prices_cardmarket (lit "sv3-1") w_ok).1
      = mkHTTP 501 (Detail NOT_CONFIGURED).
Proof.
  split; [reflexivity|].
  apply (C4_cardmarket_always_501 (lit "sv3-1") w_ok). reflexivity.
Defined.

(** C4 as stated fails: with CARDMARKET_APP_SECRET set and nothing else,
    credentials are present, and the detail still says "not configured". *)
Lemma C4_secret_only_not_configured :
  no_credentials (environ w_secret_only) = false
  ∧ (GET_api_prices_cardmarket (lit "sv3-1") w_secret_only).1
      = mkHTTP 501 (Detail NOT_CONFIGURED)
  ∧ ¬ cardmarket_as_stated (lit "sv3-1") w_secret_only.
Proof.
  split_and!; [by vm_compute|reflexivity|].
  unfold cardmarket_as_stated. intros Hs. vm_compute in Hs. discriminate.
Qed.

(** C5 as stated fails: [DATABASE_URL] is set, to the empty string, and the
    body of [GET /test] reports it as not set. *)
Lemma C5_empty_url_reported_unset :
  is_set (environ w_empty_url) (lit "DATABASE_URL") = true
  ∧ ∃ b : gmap str diag,
      (GET_test (platform := sample_platform) w_empty_url).1
        = mkHTTP 200 (Content b)
      ∧ b !! lit "database_url" = Some (DStr (CROSS_MARK ++ lit " Not Set")).
Proof.
  split; [by vm_compute|].
  eexists. split; [reflexivity|]. by vm_compute.
Qed.



(** C7, at a connected empty store, and at a store that refuses. *)
Lemma C7_add_wishlist_witness :
  WishlistIn.validate p_bought = inr item_bought
  ∧ POST_api_wishlist (platform := sample_platform) p_bought w_live
      = (mkHTTP 200 (Content {[ lit "id" := lit "000000000000000000000000" ]}),
         with_db (inserted (model_dump item_bought) empty_db) w_live)
  ∧ POST_api_wishlist (platform := sample_platform) p_bought w_down
      = (mkHTTP 500 (Detail (lit "connection refused")), w_down).
Proof.
  split; [reflexivity|]. split.
  - exact (C7_add_wishlist (platform := sample_platform)
             p_bought item_bought w_live eq_refl).
  - exact (C7_add_wishlist (platform := sample_platform)
             p_bought item_bought w_down eq_refl).
Defined.



(** C10, at two worlds whose tokens are both non-empty, with different
    card ids and different other credentials. *)
Lemma C10_depends_on_token_only_witness :
  truthy (environ w_token !! lit "CARDMARKET_APP_TOKEN")
    = truthy (environ w_other_secrets !! lit "CARDMARKET_APP_TOKEN")
  ∧ (GET_api_prices_cardmarket (lit "sv3-1") w_token).1
      = (GET_api_prices_cardmarket (lit "base1-4") w_other_secrets).1.
Proof.
  split; [reflexivity|].
  apply C10_depends_on_token_only. reflexivity.
Defined.

(** C10 as stated fails: CARDMARKET_APP_TOKEN is set in both worlds, to the
    empty string in one, and the answers differ. *)
Lemma C10_empty_token_differs :
  is_set (environ w_empty_token) (lit "CARDMARKET_APP_TOKEN")
    = is_set (environ w_token) (lit "CARDMARKET_APP_TOKEN")
  ∧ (GET_api_prices_cardmarket (lit "sv3-1") w_empty_token).1
      ≠ (GET_api_prices_cardmarket (lit "sv3-1") w_token).1.
Proof.
  split; [by vm_compute|].
  intros Heq. vm_compute in Heq. discriminate.
Qed.

(** ** The further properties at concrete inputs *)

(** X1, at a catalog that cannot be reached. *)
Lemma proxy_transport_error_witness :
  catalog w_unreachable (cards_request None None None)
    = GetRaises (lit "Connection refused")
  ∧ (GET_api_cards (platform := sample_platform) None None None w_unreachable).1
      = mkHTTP 500 (Detail (lit "Connection refused")).
Proof.
  split; [reflexivity|].
  exact (proj1 (proxy_transport_error (platform := sample_platform)
                  w_unreachable (lit "Connection refused"))
           None None None eq_refl).
Defined.

(** X2, at a catalog that answers 200 with a page that is not JSON. *)
Lemma proxy_undecodable_body_witness :
  status_code garbled = 200 ∧ json garbled = inl (lit "Expecting value")
  ∧ catalog w_garbled (card_request (lit "sv3-1")) = GetReturns garbled
  ∧ (GET_api_card (platform := sample_platform) (lit "sv3-1") w_garbled).1
      = mkHTTP 500 (Detail (lit "Expecting value")).
Proof.
  split_and!; [reflexivity..|].
  exact (proj1 (proj2 (proxy_undecodable_body (platform := sample_platform)
                         w_garbled garbled (lit "Expecting value") eq_refl eq_refl))
           (lit "sv3-1") eq_refl).
Defined.

(** X6, at [orderBy=-releaseDate] and a catalog that answers 200. *)
Lemma sets_forwarding_witness :
  sent (GET_api_sets (platform := sample_platform)
          None None (Some (lit "-releaseDate")) w_ok).2
    = [mkRequest (PTCG_API_BASE ++ lit "/sets")
         (Some {[ lit "orderBy" := AStr (lit "-releaseDate");
                  lit "page" := AInt 1; lit "pageSize" := AInt 50 ]}) 20]
  ∧ (GET_api_sets (platform := sample_platform)
       None None (Some (lit "-releaseDate")) w_ok).1
      = mkHTTP 200 (Content empty_page).
Proof.
  destruct (sets_forwarding (platform := sample_platform)
              None None (Some (lit "-releaseDate")) w_ok) as (Hs & _ & Hb).
  split; [exact Hs|].
  exact (proj1 (Hb _ _ eq_refl eq_refl eq_refl)).
Defined.

(** X10, at a dict with an identifier. *)
Lemma render_id_properties_witness :
  d_bought !! lit "_id" = Some (SOid (mkObjectId 1))
  ∧ render_id (platform := sample_platform) d_bought !! lit "id"
      = Some (SStr (lit "000000000000000000000001"))
  ∧ render_id (platform := sample_platform) d_bought !! lit "status"
      = Some (SStr (lit "bought")).
Proof.
  destruct (render_id_properties (platform := sample_platform) d_bought)
    as (_ & _ & Hid & Hk & _).
  split; [reflexivity|]. split.
  - exact (Hid _ eq_refl).
  - rewrite Hk by done. reflexivity.
Defined.


(** X13, at the payload with status [bought]. *)
Lemma accepted_record_witness :
  WishlistIn.validate p_bought = inr item_bought
  ∧ dom (model_dump item_bought) = wishlist_fields.
Proof.
  split; [reflexivity|].
  exact (proj1 (accepted_record p_bought item_bought eq_refl)).
Defined.

(** X15, at a payload with the price 3. *)
Lemma WishlistItem_accepts_iff_witness :
  WishlistItem.validate (H := sample_platform) p_priced = inr wi_priced
  ∧ WishlistItem.desired_price wi_priced = Some (Finite (Qc_of_Z 3))
  ∧ (0 ≤ Qc_of_Z 3)%Qc.
Proof.
  split; [reflexivity|]. split; [reflexivity|].
  exact (proj2 (WishlistItem_accepts_iff (platform := sample_platform) p_priced)
           wi_priced eq_refl (Finite (Qc_of_Z 3)) eq_refl).
Defined.

(** X16, at the same payload. *)
Lemma WishlistIn_accepts_more_witness :
  WishlistItem.validate (H := sample_platform) p_priced = inr wi_priced
  ∧ ∃ item,
      WishlistIn.validate p_priced = inr item
      ∧ WishlistIn.card_id item = WishlistItem.card_id wi_priced
      ∧ WishlistIn.name item = WishlistItem.name wi_priced
      ∧ WishlistIn.set_name item = WishlistItem.set_name wi_priced
      ∧ WishlistIn.set_id item = WishlistItem.set_id wi_priced
      ∧ WishlistIn.number item = WishlistItem.number wi_priced
      ∧ WishlistIn.image_url item = WishlistItem.image_url wi_priced
      ∧ WishlistIn.desired_price item = WishlistItem.desired_price wi_priced
      ∧ WishlistIn.notes item = WishlistItem.notes wi_priced
      ∧ WishlistIn.status item = Some (WishlistItem.status wi_priced).
Proof.
  split; [reflexivity|].
  exact (WishlistIn_accepts_more (platform := sample_platform)
           p_priced wi_priced eq_refl).
Defined.


